(** * Shape inference of the EmbeddingBag operations

    A shallow embedding of [extensions/ops/embedding_bag.py] (Model
    Optimizer): the three [infer] routines of [EmbeddingBagOffsetsSum],
    [EmbeddingBagPackedSum] and [EmbeddingSegmentsSum], together with the
    part of the graph API and of Python they rely on, followed by the
    properties of the specification proved about them. *)

From stdpp Require Import gmap strings list fin_maps.
From Stdlib Require Import ZArith.

Local Open Scope Z_scope.
Local Open Scope nat_scope.

(** ** Shapes *)

(** A shape returned by [get_shape] is a masked integer array: an entry is
    either a number or masked (a dimension that is not known yet). *)
Inductive Dimension : Type :=
  | Known (n : Z)
  | Unknown.

#[global] Instance Dimension_eq_dec : EqDecision Dimension :=
  ltac:(solve_decision).

Abbreviation Shape := (list Dimension).

(** [rank] is Python's [len] on a shape that is there. *)
Definition rank (s : Shape) : nat := length s.

(** [s[:k]] and [s[k:]]: Python slices never raise, they clip at the end of
    the array. *)
Definition slice_prefix (s : Shape) (k : nat) : Shape := take k s.
Definition slice_suffix_from (s : Shape) (k : nat) : Shape := drop k s.

(** [np.ma.concatenate((a, b))] on two one-dimensional masked arrays: the
    data and the masks are both concatenated, so every entry keeps its
    value or its mask. *)
Definition concatenate (a b : Shape) : Shape := a ++ b.

(** Truth value of [a == b] for two shapes of one entry each, the only case
    in which the source evaluates it: entries that are both masked compare
    equal, a masked and an unmasked entry compare different, two numbers
    compare by value. *)
Definition shape_eqb (a b : option Shape) : bool := bool_decide (a = b).

(** ** The graph interface *)

(** Modelled from the spec: the port snapshot that [mo.graph.port.Port]
    (not part of the sources at hand) offers to [infer]:
    [port.disconnected()], [port.data.get_shape()], which is [None] when the
    producer has no shape yet, and [port.data.get_value()], which is [None]
    unless the producer was folded to a constant (an integer scalar). A
    constant that is an array rather than a scalar is not represented:
    [EmbeddingSegmentsSum.infer] would wrap it in a list and fail inside
    [np.ma.concatenate]. *)
Record Port : Type := mkPort {
  disconnected : bool;
  get_shape : option Shape;
  get_value : option Z
}.

(** Modelled from the spec: the node that [mo.graph.graph.Node] (not part of
    the sources at hand) offers to [infer]: its [id], its optional ['name']
    attribute, the dictionary [node.in_ports()] from port index to port,
    and the shape held by its only output port, [node.out_port(0)]. *)
Record Node : Type := mkNode {
  id : string;
  attr_name : option string;
  in_ports : gmap nat Port;
  out_port_shape : option Shape
}.

(** The three operations of the file, by their class. *)
Inductive op_class : Type :=
  | OffsetsSum
  | PackedSum
  | SegmentsSum.

(** [op = op_type = '...'] and [in_ports_count] of each class. *)
Definition op_type (c : op_class) : string :=
  match c with
  | OffsetsSum => "EmbeddingBagOffsetsSum"
  | PackedSum => "EmbeddingBagPackedSum"
  | SegmentsSum => "EmbeddingSegmentsSum"
  end.

Definition in_ports_count (c : op_class) : nat :=
  match c with
  | OffsetsSum => 5
  | PackedSum => 3
  | SegmentsSum => 6
  end.

(** ** Exceptions *)

(** The message of each [assert] of the file, with the values that are
    formatted into it. *)
Inductive message : Type :=
  (** "... should have at least k connected input port, but it doesn't for
      node: `{}`. Ports: {}", formatted with the node name and the
      dictionary of the connected ports *)
  | connected_ports_message (c : op_class) (name : string)
                            (connected_in_ports : gmap nat Port)
  (** "... should have at least 2D weights for node: `{}`" *)
  | weights_2D_message (c : op_class) (name : string)
  (** "Rank of the offsets in EmbeddingBagOffsetsSum should be equal to 1
      for node: `{}`" *)
  | offsets_rank_message (name : string)
  (** "Both indices and segment_ids should have the same shape for node:
      `{}`" *)
  | same_shape_message (name : string)
  (** "EmbeddingSegmentsSum should have a constant num_segments provided,
      but it doesn't for node: `{}`." *)
  | constant_num_segments_message (name : string).

(** What a call of [infer] can raise: a failed [assert], Python's
    [TypeError] ([len(None)], [None[:1]]), and the graph's own [Error] for a
    port index that the node does not have. *)
Inductive exn : Type :=
  | AssertionError (m : message)
  | TypeError
  | Error (idx : nat).

(** The error kinds of the specification. *)
Inductive InferenceError : Type :=
  | UnknownVariant
  | MissingRequiredInput
  | RankTooLow
  | InvalidOffsetsRank
  | ShapeMismatch
  | RequiresConstant
  | IndexOutOfRange.

(** The kind a raised exception stands for; exceptions that no [assert] of
    the file raises have none. *)
Definition error_kind (e : exn) : option InferenceError :=
  match e with
  | AssertionError (connected_ports_message _ _ _) => Some MissingRequiredInput
  | AssertionError (weights_2D_message _ _) => Some RankTooLow
  | AssertionError (offsets_rank_message _) => Some InvalidOffsetsRank
  | AssertionError (same_shape_message _) => Some ShapeMismatch
  | AssertionError (constant_num_segments_message _) => Some RequiresConstant
  | TypeError => None
  | Error _ => None
  end.

(** ** Computations on a node *)

(** A statement of [infer] reads and writes the node it was given and either
    yields a value or raises. *)
Definition M (A : Type) : Type := Node → Node * (exn + A).

Definition ret {A} (a : A) : M A := λ n, (n, inr a).
Definition raise {A} (e : exn) : M A := λ n, (n, inl e).
Definition bind {A B} (m : M A) (k : A → M B) : M B :=
  λ n, match m n with
       | (n', inr a) => k a n'
       | (n', inl e) => (n', inl e)
       end.

Notation "'let!' x ':=' m 'in' k" := (bind m (λ x, k))
  (at level 10, x name, m at level 100, k at level 200).
Notation "m ';;' k" := (bind m (λ _, k))
  (at level 100, k at level 200, right associativity).

(** [assert cond, msg] *)
Definition assert (cond : bool) (msg : message) : M unit :=
  if cond then ret tt else raise (AssertionError msg).

(** [a and b] on conditions that can raise: [b] is evaluated only when [a]
    is true. *)
Definition py_and (a b : M bool) : M bool :=
  let! x := a in if x then b else ret false.

(** [len(shape)], a [TypeError] on [None]. *)
Definition len (shape : option Shape) : M nat :=
  match shape with
  | Some s => ret (rank s)
  | None => raise TypeError
  end.

(** [shape[:k]] and [shape[k:]], a [TypeError] on [None]. *)
Definition slice_to (k : nat) (shape : option Shape) : M Shape :=
  match shape with
  | Some s => ret (slice_prefix s k)
  | None => raise TypeError
  end.

Definition slice_from (k : nat) (shape : option Shape) : M Shape :=
  match shape with
  | Some s => ret (slice_suffix_from s k)
  | None => raise TypeError
  end.

(** [node.soft_get('name', node.id)] *)
Definition soft_get_name : M string :=
  λ n, (n, inr (default (id n) (attr_name n))).

(** [{idx: port for idx, port in node.in_ports().items()
      if not port.disconnected()}] *)
Definition connected (ports : gmap nat Port) : gmap nat Port :=
  filter (λ ip, disconnected ip.2 = false) ports.

Definition get_connected_in_ports : M (gmap nat Port) :=
  λ n, (n, inr (connected (in_ports n))).

(** [all(p in connected_in_ports for p in ps)] *)
Definition all_in (ps : list nat) (connected_in_ports : gmap nat Port) : bool :=
  forallb (λ p, bool_decide (is_Some (connected_in_ports !! p))) ps.

(** [node.in_port(idx)] *)
Definition in_port (idx : nat) : M Port :=
  λ n, match in_ports n !! idx with
       | Some p => (n, inr p)
       | None => (n, inl (Error idx))
       end.

(** [node.out_port(0).data.set_shape(shape)] *)
Definition set_shape (shape : Shape) : M unit :=
  λ n, (mkNode (id n) (attr_name n) (in_ports n) (Some shape), inr tt).

(** ** The three [infer] routines *)

Module EmbeddingBagOffsetsSum.

Definition infer : M unit :=
  let! name := soft_get_name in
  let! connected_in_ports := get_connected_in_ports in
  assert (bool_decide (3 ≤ size connected_in_ports)
          && all_in [0; 1; 2] connected_in_ports)
         (connected_ports_message OffsetsSum name connected_in_ports);;
  let! port0 := in_port 0 in
  let weights_shape := get_shape port0 in
  let! l := len weights_shape in
  assert (bool_decide (2 ≤ l)) (weights_2D_message OffsetsSum name);;
  let! port2 := in_port 2 in
  let offsets_shape := get_shape port2 in
  let! ok := py_and (ret (bool_decide (offsets_shape ≠ None)))
                    (let! l := len offsets_shape in ret (bool_decide (l = 1))) in
  assert ok (offsets_rank_message name);;
  let! a := slice_to 1 offsets_shape in
  let! b := slice_from 1 weights_shape in
  set_shape (concatenate a b).

End EmbeddingBagOffsetsSum.

Module EmbeddingBagPackedSum.

Definition infer : M unit :=
  let! name := soft_get_name in
  let! connected_in_ports := get_connected_in_ports in
  assert (bool_decide (2 ≤ size connected_in_ports)
          && all_in [0; 1] connected_in_ports)
         (connected_ports_message PackedSum name connected_in_ports);;
  let! port0 := in_port 0 in
  let weights_shape := get_shape port0 in
  let! l := len weights_shape in
  assert (bool_decide (2 ≤ l)) (weights_2D_message PackedSum name);;
  let! port1 := in_port 1 in
  let input_shape := get_shape port1 in
  let! a := slice_to 1 input_shape in
  let! b := slice_from 1 weights_shape in
  set_shape (concatenate a b).

End EmbeddingBagPackedSum.

Module EmbeddingSegmentsSum.

Definition infer : M unit :=
  let! name := soft_get_name in
  let! connected_in_ports := get_connected_in_ports in
  assert (bool_decide (4 ≤ size connected_in_ports)
          && all_in [0; 1; 2; 3] connected_in_ports)
         (connected_ports_message SegmentsSum name connected_in_ports);;
  let! port0 := in_port 0 in
  let weights_shape := get_shape port0 in
  let! l := len weights_shape in
  assert (bool_decide (2 ≤ l)) (weights_2D_message SegmentsSum name);;
  let! port1 := in_port 1 in
  let indices_shape := get_shape port1 in
  let! port2 := in_port 2 in
  let segment_ids := get_shape port2 in
  let! ok := py_and (let! l := len indices_shape in ret (bool_decide (l = 1)))
               (py_and (let! l := len segment_ids in ret (bool_decide (l = 1)))
                       (ret (shape_eqb indices_shape segment_ids))) in
  assert ok (same_shape_message name);;
  let! port3 := in_port 3 in
  let num_segments := get_value port3 in
  match num_segments with
  | None => raise (AssertionError (constant_num_segments_message name))
  | Some value =>
      let! b := slice_from 1 weights_shape in
      let output_shape := concatenate [Known value] b in
      set_shape output_shape
  end.

End EmbeddingSegmentsSum.

(** ['infer': self.infer] of [EmbeddingBagBase.__init__]: the routine a node
    of each class is given. *)
Definition infer (c : op_class) : M unit :=
  match c with
  | OffsetsSum => EmbeddingBagOffsetsSum.infer
  | PackedSum => EmbeddingBagPackedSum.infer
  | SegmentsSum => EmbeddingSegmentsSum.infer
  end.

(** ** Vocabulary of the statements *)

(** The ports each class asks for in its first [assert]. *)
Definition mandatory_ports (c : op_class) : list nat :=
  match c with
  | OffsetsSum => [0; 1; 2]
  | PackedSum => [0; 1]
  | SegmentsSum => [0; 1; 2; 3]
  end.

(** Port [idx] is one of the node's input ports and is connected. *)
Definition is_connected (n : Node) (idx : nat) : bool :=
  match in_ports n !! idx with
  | Some p => negb (disconnected p)
  | None => false
  end.

(** The shape and the constant value at input port [idx], if any. *)
Definition shape_at (n : Node) (idx : nat) : option Shape :=
  in_ports n !! idx ≫= get_shape.

Definition value_at (n : Node) (idx : nat) : option Z :=
  in_ports n !! idx ≫= get_value.

(** The node name used in the messages. *)
Definition name_of (n : Node) : string := default (id n) (attr_name n).

(** The node after its output shape was set. *)
Definition with_shape (n : Node) (s : Shape) : Node :=
  mkNode (id n) (attr_name n) (in_ports n) (Some s).

(** The ports an exception names, if it carries any. *)
Definition named_ports (e : exn) : option (gset nat) :=
  match e with
  | AssertionError (connected_ports_message _ _ ports) => Some (dom ports)
  | _ => None
  end.

(** The two ways a call ends: an exception with the node as it was, or
    the node with its output shape set. *)
Definition raises (n : Node) (e : exn) : Node * (exn + unit) := (n, inl e).
Definition returns (n : Node) (s : Shape) : Node * (exn + unit) :=
  (with_shape n s, inr tt).

(** Every port the class asks for is connected. *)
Definition mandatory_connected (c : op_class) (n : Node) : bool :=
  forallb (is_connected n) (mandatory_ports c).

(** Concrete nodes used as examples: ports are numbered from 0 in the order
    given. *)
Definition input (s : Shape) : Port := mkPort false (Some s) None.
Definition constant (v : Z) : Port := mkPort false (Some []) (Some v).
Definition not_inferred : Port := mkPort false None None.
Definition unconnected : Port := mkPort true None None.
Definition node_of (ports : list Port) : Node :=
  mkNode "node_1" (Some "emb") (map_seq 0 ports) None.

Definition weights_1000_64 : Port := input [Known 1000%Z; Known 64%Z].

Definition offsets_sum_node : Node :=
  node_of [weights_1000_64; input [Known 20%Z]; input [Known 7%Z]].
Definition packed_sum_node : Node :=
  node_of [weights_1000_64; input [Known 4%Z; Known 3%Z]].
Definition packed_sum_scalar_indices : Node :=
  node_of [weights_1000_64; input []].
Definition segments_sum_node : Node :=
  node_of [weights_1000_64; input [Known 10%Z]; input [Known 10%Z]; constant 5%Z].
Definition offsets_sum_indices_unconnected : Node :=
  node_of [weights_1000_64; unconnected; input [Known 7%Z]].
Definition offsets_sum_flat_weights : Node :=
  node_of [input [Known 1000%Z]; input [Known 20%Z]; input [Known 7%Z]].
Definition offsets_sum_weights_not_inferred : Node :=
  node_of [not_inferred; input [Known 20%Z]; input [Known 7%Z]].

(** Further nodes: offsets of rank 2; a node that differs from
    [offsets_sum_node] in everything the routine does not read (number of
    rows of the weights, shape of the indices, two more ports); indices of
    rank 2 with no segment_ids shape. *)
Definition offsets_sum_offsets_2d : Node :=
  node_of [weights_1000_64; input [Known 20%Z]; input [Known 7%Z; Known 2%Z]].
Definition offsets_sum_other_unread : Node :=
  mkNode "node_2" None
         (map_seq 0 [input [Known 5%Z; Known 64%Z]; input [Unknown; Known 3%Z];
                     input [Known 7%Z]; constant 0%Z; unconnected])
         (Some [Known 1%Z]).
Definition segments_sum_no_segment_ids_shape : Node :=
  node_of [weights_1000_64; input [Known 10%Z; Known 2%Z]; not_inferred;
           constant 5%Z].

(** Nodes on which an earlier check fails before the one under study:
    weights of rank 1 with the indices port unconnected; mismatched index
    shapes under weights of rank 1; mismatched index shapes with no constant
    at port 3; no weights shape with the indices port unconnected. *)
Definition offsets_sum_flat_weights_unconnected : Node :=
  node_of [input [Known 1000%Z]; unconnected; input [Known 7%Z]].
Definition offsets_sum_not_inferred_unconnected : Node :=
  node_of [not_inferred; unconnected; input [Known 7%Z]].

(** ** The check of the connected ports *)

Section connected_ports.
Context (m : gmap nat Port).

Lemma connected_lookup_Some (i : nat) (p : Port) :
  connected m !! i = Some p ↔ m !! i = Some p ∧ disconnected p = false.
Proof. unfold connected. by rewrite map_lookup_filter_Some. Qed.

Lemma all_in_connected (ps : list nat) :
  all_in ps (connected m) = true ↔
  ∀ i, i ∈ ps → ∃ p, m !! i = Some p ∧ disconnected p = false.
Proof.
  unfold all_in. rewrite forallb_forall. split.
  - intros H i Hi. apply list_elem_of_In, H, bool_decide_eq_true in Hi.
    destruct Hi as [p Hp]. exists p. by apply connected_lookup_Some.
  - intros H i Hi. apply list_elem_of_In, H in Hi as (p & Hp & Hd).
    apply bool_decide_eq_true. exists p. by apply connected_lookup_Some.
Qed.

(** A dictionary that holds each of [ps] holds at least as many entries. *)
Lemma all_in_size (ps : list nat) (d : gmap nat Port) :
  NoDup ps → all_in ps d = true → length ps ≤ size d.
Proof.
  intros Hnd H. unfold all_in in H. rewrite forallb_forall in H.
  rewrite <- (size_list_to_set (C := gset nat) ps Hnd), <- size_dom.
  apply subseteq_size. intros i Hi.
  apply elem_of_list_to_set, list_elem_of_In, H, bool_decide_eq_true in Hi.
  by apply elem_of_dom.
Qed.
End connected_ports.

Lemma is_connected_true (n : Node) (i : nat) :
  is_connected n i = true ↔
  ∃ p, in_ports n !! i = Some p ∧ disconnected p = false.
Proof.
  unfold is_connected. destruct (in_ports n !! i) as [p|].
  - rewrite negb_true_iff. split.
    + intros H. by exists p.
    + by intros (? & [= <-] & ?).
  - split; [done | by intros (? & ? & ?)].
Qed.

(** The first [assert] of each routine passes exactly when every port it
    lists is connected; the count adds nothing to the membership test. *)
Lemma ports_check_true (n : Node) (k : nat) (ps : list nat) :
  NoDup ps → k ≤ length ps →
  (∀ i, i ∈ ps → is_connected n i = true) →
  bool_decide (k ≤ size (connected (in_ports n)))
  && all_in ps (connected (in_ports n)) = true.
Proof.
  intros Hnd Hk H.
  assert (Hall : all_in ps (connected (in_ports n)) = true).
  { apply all_in_connected. intros i Hi. by apply is_connected_true, H. }
  rewrite Hall, andb_true_r. apply bool_decide_eq_true.
  pose proof (all_in_size ps _ Hnd Hall). lia.
Qed.

Lemma ports_check_false (n : Node) (k : nat) (ps : list nat) (i : nat) :
  i ∈ ps → is_connected n i = false →
  bool_decide (k ≤ size (connected (in_ports n)))
  && all_in ps (connected (in_ports n)) = false.
Proof.
  intros Hi Hc. apply andb_false_iff. right.
  apply not_true_is_false. intros Hall.
  rewrite all_in_connected in Hall. apply Hall, is_connected_true in Hi.
  congruence.
Qed.

Lemma ports_check_inv (n : Node) (k : nat) (ps : list nat) (i : nat) :
  bool_decide (k ≤ size (connected (in_ports n)))
  && all_in ps (connected (in_ports n)) = true →
  i ∈ ps → is_connected n i = true.
Proof.
  intros [_ Hall]%andb_true_iff Hi.
  rewrite all_in_connected in Hall. by apply is_connected_true, Hall.
Qed.

Lemma mandatory_ports_check_true (n : Node) (c : op_class) :
  (∀ i, i ∈ mandatory_ports c → is_connected n i = true) →
  bool_decide (length (mandatory_ports c) ≤ size (connected (in_ports n)))
  && all_in (mandatory_ports c) (connected (in_ports n)) = true.
Proof.
  intros H. apply ports_check_true; [|done..].
  destruct c; compute_done.
Qed.

Lemma ports_check_eq (n : Node) (k : nat) (ps : list nat) :
  NoDup ps → k ≤ length ps →
  bool_decide (k ≤ size (connected (in_ports n)))
  && all_in ps (connected (in_ports n)) = forallb (is_connected n) ps.
Proof.
  intros Hnd Hk. destruct (forallb (is_connected n) ps) eqn:E.
  - apply ports_check_true; [done..|].
    intros i Hi. rewrite forallb_forall in E. by apply E, list_elem_of_In.
  - apply not_true_is_false. intros H. apply not_true_iff_false in E.
    apply E, forallb_forall. intros i Hi.
    eapply ports_check_inv; [done|]. by apply list_elem_of_In.
Qed.

(** Once a port is known to be connected, [node.in_port] finds it. *)
Lemma in_port_connected (n : Node) (i : nat) :
  is_connected n i = true →
  ∃ p, in_ports n !! i = Some p ∧ in_port i n = (n, inr p).
Proof.
  intros (p & Hp & _)%is_connected_true. exists p. split; [done|].
  unfold in_port. by rewrite Hp.
Qed.

(** ** The routines as decision trees *)

Ltac unfold_infer :=
  unfold infer, EmbeddingBagOffsetsSum.infer, EmbeddingBagPackedSum.infer,
    EmbeddingSegmentsSum.infer, py_and, bind, soft_get_name,
    get_connected_in_ports, assert, len, slice_to, slice_from, set_shape,
    concatenate, ret, raise, raises, returns, with_shape, name_of.

Lemma OffsetsSum_infer_eq (n : Node) :
  infer OffsetsSum n =
  if forallb (is_connected n) [0; 1; 2] then
    match shape_at n 0 with
    | None => raises n TypeError
    | Some weights_shape =>
        if bool_decide (2 ≤ rank weights_shape) then
          match shape_at n 2 with
          | Some offsets_shape =>
              if bool_decide (rank offsets_shape = 1) then
                returns n (slice_prefix offsets_shape 1
                           ++ slice_suffix_from weights_shape 1)
              else raises n (AssertionError (offsets_rank_message (name_of n)))
          | None => raises n (AssertionError (offsets_rank_message (name_of n)))
          end
        else raises n (AssertionError (weights_2D_message OffsetsSum (name_of n)))
    end
  else raises n (AssertionError (connected_ports_message OffsetsSum (name_of n)
                                   (connected (in_ports n)))).
Proof.
  unfold_infer. rewrite (ports_check_eq n 3 [0; 1; 2]) by compute_done.
  destruct (forallb _ _) eqn:E; [|done]. simpl in E.
  apply andb_true_iff in E as [E0 [E1 [E2 _]%andb_true_iff]%andb_true_iff].
  simpl. destruct (in_port_connected n 0 E0) as (p0 & Hp0 & ->).
  unfold shape_at. rewrite Hp0. simpl.
  destruct (get_shape p0) as [ws|]; [|done]. simpl.
  case_bool_decide; [|done]. simpl.
  destruct (in_port_connected n 2 E2) as (p2 & Hp2 & ->).
  rewrite Hp2. simpl.
  destruct (get_shape p2) as [os|]; [|done]. simpl.
  by case_bool_decide.
Qed.

Lemma PackedSum_infer_eq (n : Node) :
  infer PackedSum n =
  if forallb (is_connected n) [0; 1] then
    match shape_at n 0 with
    | None => raises n TypeError
    | Some weights_shape =>
        if bool_decide (2 ≤ rank weights_shape) then
          match shape_at n 1 with
          | Some input_shape =>
              returns n (slice_prefix input_shape 1
                         ++ slice_suffix_from weights_shape 1)
          | None => raises n TypeError
          end
        else raises n (AssertionError (weights_2D_message PackedSum (name_of n)))
    end
  else raises n (AssertionError (connected_ports_message PackedSum (name_of n)
                                   (connected (in_ports n)))).
Proof.
  unfold_infer. rewrite (ports_check_eq n 2 [0; 1]) by compute_done.
  destruct (forallb _ _) eqn:E; [|done]. simpl in E.
  apply andb_true_iff in E as [E0 [E1 _]%andb_true_iff].
  simpl. destruct (in_port_connected n 0 E0) as (p0 & Hp0 & ->).
  unfold shape_at. rewrite Hp0. simpl.
  destruct (get_shape p0) as [ws|]; [|done]. simpl.
  case_bool_decide; [|done]. simpl.
  destruct (in_port_connected n 1 E1) as (p1 & Hp1 & ->).
  rewrite Hp1. simpl.
  by destruct (get_shape p1) as [s|].
Qed.

Lemma SegmentsSum_infer_eq (n : Node) :
  infer SegmentsSum n =
  if forallb (is_connected n) [0; 1; 2; 3] then
    match shape_at n 0 with
    | None => raises n TypeError
    | Some weights_shape =>
        if bool_decide (2 ≤ rank weights_shape) then
          match shape_at n 1 with
          | None => raises n TypeError
          | Some indices_shape =>
              if bool_decide (rank indices_shape = 1) then
                match shape_at n 2 with
                | None => raises n TypeError
                | Some segment_ids =>
                    if bool_decide (rank segment_ids = 1)
                       && bool_decide (indices_shape = segment_ids) then
                      match value_at n 3 with
                      | Some num_segments =>
                          returns n (Known num_segments
                                     :: slice_suffix_from weights_shape 1)
                      | None =>
                          raises n (AssertionError
                                      (constant_num_segments_message (name_of n)))
                      end
                    else raises n (AssertionError (same_shape_message (name_of n)))
                end
              else raises n (AssertionError (same_shape_message (name_of n)))
          end
        else raises n (AssertionError (weights_2D_message SegmentsSum (name_of n)))
    end
  else raises n (AssertionError (connected_ports_message SegmentsSum (name_of n)
                                   (connected (in_ports n)))).
Proof.
  unfold_infer. rewrite (ports_check_eq n 4 [0; 1; 2; 3]) by compute_done.
  destruct (forallb _ _) eqn:E; [|done]. simpl in E.
  apply andb_true_iff in E as
    [E0 [E1 [E2 [E3 _]%andb_true_iff]%andb_true_iff]%andb_true_iff].
  simpl. destruct (in_port_connected n 0 E0) as (p0 & Hp0 & ->).
  unfold shape_at, value_at. rewrite Hp0. simpl.
  destruct (get_shape p0) as [ws|]; [|done]. simpl.
  case_bool_decide; [|done]. simpl.
  destruct (in_port_connected n 1 E1) as (p1 & Hp1 & ->).
  destruct (in_port_connected n 2 E2) as (p2 & Hp2 & ->).
  rewrite Hp1, Hp2. simpl.
  destruct (get_shape p1) as [s1|]; [|done]. simpl.
  case_bool_decide; [|done]. simpl.
  destruct (get_shape p2) as [s2|]; [|done]. simpl.
  unfold shape_eqb.
  case_bool_decide; simpl; [|done].
  destruct (decide (s1 = s2)) as [->|Hne].
  - rewrite !bool_decide_eq_true_2 by done. simpl.
    destruct (in_port_connected n 3 E3) as (p3 & Hp3 & ->).
    rewrite Hp3. simpl. by destruct (get_value p3).
  - rewrite !bool_decide_eq_false_2 by congruence. done.
Qed.


(** A call either raises and leaves the node as it was, or sets the output
    shape and returns. *)
Lemma infer_outcome (c : op_class) (n : Node) :
  (∃ e, infer c n = raises n e) ∨ (∃ s, infer c n = returns n s).
Proof.
  destruct c;
    [rewrite OffsetsSum_infer_eq | rewrite PackedSum_infer_eq
     | rewrite SegmentsSum_infer_eq];
    repeat case_match; eauto.
Qed.

(** The graph's [Error] is never raised: a port is looked up only after the
    first [assert] found it among the connected ones. *)
Lemma infer_finds_its_ports (c : op_class) (n : Node) (idx : nat) :
  infer c n ≠ raises n (Error idx).
Proof.
  destruct c;
    [rewrite OffsetsSum_infer_eq | rewrite PackedSum_infer_eq
     | rewrite SegmentsSum_infer_eq];
    repeat case_match; unfold raises, returns; congruence.
Qed.

Lemma raises_not_returns (n n' : Node) (e : exn) :
  raises n e ≠ (n', inr tt).
Proof. unfold raises. congruence. Qed.

Lemma returns_inv (n n' : Node) (s : Shape) :
  returns n s = (n', inr tt) → n' = with_shape n s.
Proof. unfold returns. congruence. Qed.

(** ** Derived output shapes *)

(** C1. On a valid EmbeddingBagOffsetsSum node (ports 0, 1 and 2 connected,
    weights of rank at least 2, offsets of rank exactly 1) [infer] sets the
    output shape to the first dimension of the offsets shape followed by the
    dimensions of the weights shape after the first; the output has the
    rank of the weights. *)
Theorem OffsetsSum_output_shape (n : Node) (weights_shape offsets_shape : Shape) :
  mandatory_connected OffsetsSum n = true →
  shape_at n 0 = Some weights_shape → 2 ≤ rank weights_shape →
  shape_at n 2 = Some offsets_shape → rank offsets_shape = 1 →
  ∃ out,
    infer OffsetsSum n = returns n out
    ∧ out = slice_prefix offsets_shape 1 ++ slice_suffix_from weights_shape 1
    ∧ out !! 0 = offsets_shape !! 0
    ∧ drop 1 out = drop 1 weights_shape
    ∧ rank out = rank weights_shape.
Proof.
  intros Hc Hw Hrw Ho Hro. eexists. split; [|split; [reflexivity|]].
  - rewrite OffsetsSum_infer_eq.
    unfold mandatory_connected, mandatory_ports in Hc.
    rewrite Hc, Hw, Ho, !bool_decide_eq_true_2 by done. done.
  - unfold rank, slice_prefix, slice_suffix_from in *.
    destruct offsets_shape as [|d [|]]; simplify_eq/=.
    destruct weights_shape as [|w ws]; simpl in *; [lia|]. done.
Qed.

Lemma OffsetsSum_output_shape_witness :
  infer OffsetsSum offsets_sum_node
  = returns offsets_sum_node [Known 7%Z; Known 64%Z].
Proof.
  destruct (OffsetsSum_output_shape offsets_sum_node
              [Known 1000%Z; Known 64%Z] [Known 7%Z])
    as (out & H & -> & _).
  - reflexivity.
  - reflexivity.
  - simpl. lia.
  - reflexivity.
  - reflexivity.
  - exact H.
Defined.

(** C2 as stated fails: indices of rank 0 are a valid input of
    EmbeddingBagPackedSum (ports 0 and 1 connected, weights of rank 2,
    indices shape present), and there the output is the weights shape after
    its first dimension alone, so neither [output[0] = indices_shape[0]]
    nor [output[1:] = weights_shape[1:]] holds. *)
Lemma PackedSum_scalar_indices_counterexample :
  mandatory_connected PackedSum packed_sum_scalar_indices = true
  ∧ shape_at packed_sum_scalar_indices 0 = Some [Known 1000%Z; Known 64%Z]
  ∧ shape_at packed_sum_scalar_indices 1 = Some []
  ∧ infer PackedSum packed_sum_scalar_indices
    = returns packed_sum_scalar_indices [Known 64%Z]
  ∧ ([Known 64%Z] : Shape) !! 0 ≠ ([] : Shape) !! 0
  ∧ drop 1 [Known 64%Z] ≠ drop 1 [Known 1000%Z; Known 64%Z].
Proof. repeat split; done. Qed.

(** C2, amended. On a valid EmbeddingBagPackedSum node (ports 0 and 1
    connected, weights of rank at least 2, indices shape present) [infer]
    sets the output shape to [indices_shape[:1]] followed by
    [weights_shape[1:]]; when the indices have rank at least 1 this gives
    [output[0] = indices_shape[0]] and [output[1:] = weights_shape[1:]],
    and when they have rank 0 the output is [weights_shape[1:]]. *)
Theorem PackedSum_output_shape (n : Node) (weights_shape input_shape : Shape) :
  mandatory_connected PackedSum n = true →
  shape_at n 0 = Some weights_shape → 2 ≤ rank weights_shape →
  shape_at n 1 = Some input_shape →
  ∃ out,
    infer PackedSum n = returns n out
    ∧ out = slice_prefix input_shape 1 ++ slice_suffix_from weights_shape 1
    ∧ (1 ≤ rank input_shape →
       out !! 0 = input_shape !! 0 ∧ drop 1 out = drop 1 weights_shape)
    ∧ (rank input_shape = 0 → out = drop 1 weights_shape).
Proof.
  intros Hc Hw Hrw Hi. eexists. split; [|split; [reflexivity|]].
  - rewrite PackedSum_infer_eq.
    unfold mandatory_connected, mandatory_ports in Hc.
    rewrite Hc, Hw, Hi, !bool_decide_eq_true_2 by done. done.
  - unfold rank, slice_prefix, slice_suffix_from.
    destruct input_shape as [|d ds]; simpl; split; (lia || done).
Qed.

Lemma PackedSum_output_shape_witness :
  infer PackedSum packed_sum_node
  = returns packed_sum_node [Known 4%Z; Known 64%Z].
Proof.
  destruct (PackedSum_output_shape packed_sum_node
              [Known 1000%Z; Known 64%Z] [Known 4%Z; Known 3%Z])
    as (out & H & -> & _).
  - reflexivity.
  - reflexivity.
  - simpl. lia.
  - reflexivity.
  - exact H.
Defined.

(** C3. On a valid EmbeddingSegmentsSum node (ports 0 to 3 connected,
    weights of rank at least 2, indices and segment_ids of rank 1 with the
    same shape, num_segments with a constant value) [infer] sets the output
    shape to the one-element shape holding that value followed by the
    dimensions of the weights shape after the first. *)
Theorem SegmentsSum_output_shape
    (n : Node) (weights_shape indices_shape segment_ids : Shape)
    (num_segments : Z) :
  mandatory_connected SegmentsSum n = true →
  shape_at n 0 = Some weights_shape → 2 ≤ rank weights_shape →
  shape_at n 1 = Some indices_shape → shape_at n 2 = Some segment_ids →
  rank indices_shape = 1 → rank segment_ids = 1 →
  indices_shape = segment_ids →
  value_at n 3 = Some num_segments →
  ∃ out,
    infer SegmentsSum n = returns n out
    ∧ out = [Known num_segments] ++ slice_suffix_from weights_shape 1
    ∧ out !! 0 = Some (Known num_segments)
    ∧ drop 1 out = drop 1 weights_shape.
Proof.
  intros Hc Hw Hrw Hi Hs Hri Hrs Heq Hv. eexists.
  split; [|split; [reflexivity|done]].
  rewrite SegmentsSum_infer_eq.
  unfold mandatory_connected, mandatory_ports in Hc.
  rewrite Hc, Hw, Hi, Hs, Hv, !bool_decide_eq_true_2 by done. done.
Qed.

Lemma SegmentsSum_output_shape_witness :
  infer SegmentsSum segments_sum_node
  = returns segments_sum_node [Known 5%Z; Known 64%Z].
Proof.
  destruct (SegmentsSum_output_shape segments_sum_node
              [Known 1000%Z; Known 64%Z] [Known 10%Z] [Known 10%Z] 5%Z)
    as (out & H & -> & _).
  - reflexivity.
  - reflexivity.
  - simpl. lia.
  - reflexivity.
  - reflexivity.
  - reflexivity.
  - reflexivity.
  - reflexivity.
  - reflexivity.
  - exact H.
Defined.

(** ** Unknown dimensions *)



(** ** Failures *)

(** C5 as stated fails: with port 1 of an EmbeddingBagOffsetsSum node
    disconnected, the failed assertion names ports 0 and 2, the ports that
    are connected; this is neither the set of the mandatory ports nor the
    set of the missing ones. *)
Lemma missing_port_names_connected_counterexample :
  ∃ e,
    infer OffsetsSum offsets_sum_indices_unconnected
    = raises offsets_sum_indices_unconnected e
    ∧ error_kind e = Some MissingRequiredInput
    ∧ named_ports e = Some {[0; 2]}
    ∧ named_ports e ≠ Some (list_to_set (mandatory_ports OffsetsSum))
    ∧ named_ports e ≠ Some {[1]}.
Proof.
  eexists. split; [reflexivity|]. split; [reflexivity|].
  split; [by vm_compute|]. split; by vm_compute.
Qed.

Lemma mandatory_connected_false (c : op_class) (n : Node) :
  mandatory_connected c n = false ↔
  ∃ i, i ∈ mandatory_ports c ∧ is_connected n i = false.
Proof.
  unfold mandatory_connected. split.
  - intros H. apply not_true_iff_false in H.
    destruct (decide (Forall (λ i, is_connected n i = true) (mandatory_ports c)))
      as [Hall|Hex].
    + destruct H. apply forallb_forall. intros i Hi.
      rewrite Forall_forall in Hall. by apply Hall, list_elem_of_In.
    + apply not_Forall_Exists, Exists_exists in Hex as (i & Hi & Hn); [|apply _].
      exists i. split; [done|]. by apply not_true_is_false.
  - intros (i & Hi & Hn). apply not_true_is_false. intros H.
    rewrite forallb_forall in H. apply list_elem_of_In, H in Hi. congruence.
Qed.

Lemma elem_of_dom_connected (n : Node) (i : nat) :
  i ∈ dom (connected (in_ports n)) ↔ is_connected n i = true.
Proof.
  rewrite elem_of_dom, is_connected_true. unfold is_Some.
  by setoid_rewrite connected_lookup_Some.
Qed.

(** C5, amended. For each class, if one of its mandatory ports
    (EmbeddingBagOffsetsSum 0, 1, 2; EmbeddingBagPackedSum 0, 1;
    EmbeddingSegmentsSum 0, 1, 2, 3) is not connected, [infer] fails with
    the missing-input assertion of the class, which carries the node name
    and the ports that are connected, and the node, its output shape
    included, is left as it was. *)
Theorem missing_port_fails (c : op_class) (n : Node) :
  mandatory_connected c n = false →
  ∃ e,
    infer c n = raises n e
    ∧ e = AssertionError (connected_ports_message c (name_of n)
                            (connected (in_ports n)))
    ∧ error_kind e = Some MissingRequiredInput
    ∧ ∃ ports, named_ports e = Some ports
               ∧ ∀ i, i ∈ ports ↔ is_connected n i = true.
Proof.
  intros H. eexists. split; [|split; [reflexivity|split; [reflexivity|]]].
  - unfold mandatory_connected in H.
    destruct c; unfold mandatory_ports in H;
      [rewrite OffsetsSum_infer_eq | rewrite PackedSum_infer_eq
       | rewrite SegmentsSum_infer_eq];
      by rewrite H.
  - eexists. split; [reflexivity|]. apply elem_of_dom_connected.
Qed.

Lemma missing_port_fails_witness :
  ∃ e,
    infer OffsetsSum offsets_sum_indices_unconnected
    = raises offsets_sum_indices_unconnected e
    ∧ error_kind e = Some MissingRequiredInput.
Proof.
  destruct (missing_port_fails OffsetsSum offsets_sum_indices_unconnected)
    as (e & H & _ & Hk & _).
  - reflexivity.
  - exists e. split; [exact H | exact Hk].
Defined.

(** C6 as stated fails: an EmbeddingBagOffsetsSum node whose weights have
    shape [1000] and whose port 1 is not connected fails in the check of the
    connected ports, which comes first, so the error is the missing-input
    assertion and not the weights-rank one. *)
Lemma flat_weights_unconnected_counterexample :
  shape_at offsets_sum_flat_weights_unconnected 0 = Some [Known 1000%Z]
  ∧ rank [Known 1000%Z] < 2
  ∧ ∃ e,
      infer OffsetsSum offsets_sum_flat_weights_unconnected
      = raises offsets_sum_flat_weights_unconnected e
      ∧ error_kind e = Some MissingRequiredInput
      ∧ error_kind e ≠ Some RankTooLow.
Proof.
  split; [reflexivity|]. split; [simpl; lia|].
  exists (AssertionError (connected_ports_message OffsetsSum "emb"
            (connected (in_ports offsets_sum_flat_weights_unconnected)))).
  split; [by vm_compute|]. split; [reflexivity|discriminate].
Qed.

(** C6, amended. For each class, when the weights shape is present with
    rank below 2 and the mandatory ports of the class are all connected,
    [infer] fails with the weights-rank assertion of the class and leaves
    the node, its output shape included, as it was; when a mandatory port
    is not connected it fails with the missing-input assertion instead,
    the node again left as it was. *)
Theorem flat_weights_fail (c : op_class) (n : Node) (weights_shape : Shape) :
  shape_at n 0 = Some weights_shape → rank weights_shape < 2 →
  (mandatory_connected c n = true →
   infer c n = raises n (AssertionError (weights_2D_message c (name_of n)))
   ∧ error_kind (AssertionError (weights_2D_message c (name_of n)))
     = Some RankTooLow)
  ∧ (mandatory_connected c n = false →
     ∃ e, infer c n = raises n e ∧ error_kind e = Some MissingRequiredInput).
Proof.
  intros Hw Hr.
  assert (Hb : bool_decide (2 ≤ rank weights_shape) = false)
    by (apply bool_decide_eq_false; lia).
  unfold mandatory_connected.
  destruct c; unfold mandatory_ports;
    [rewrite OffsetsSum_infer_eq | rewrite PackedSum_infer_eq
     | rewrite SegmentsSum_infer_eq];
    rewrite Hw, Hb; (split; intros ->; [done | by eexists]).
Qed.

Lemma flat_weights_fail_witness :
  infer OffsetsSum offsets_sum_flat_weights
  = raises offsets_sum_flat_weights
      (AssertionError (weights_2D_message OffsetsSum "emb")).
Proof.
  destruct (flat_weights_fail OffsetsSum offsets_sum_flat_weights
              [Known 1000%Z]) as [H _].
  - reflexivity.
  - simpl. lia.
  - destruct H as [H _]; [reflexivity | exact H].
Defined.







(** C9. On an EmbeddingBagPackedSum node that passes the earlier checks
    (ports 0 and 1 connected, weights of rank at least 2), [infer] returns
    for every indices shape that is present, whatever its rank, rank 0
    included, and raises exactly when the indices shape is absent, in which
    case the exception is not a rank assertion. *)
Theorem PackedSum_no_indices_rank_check (n : Node) (weights_shape : Shape) :
  mandatory_connected PackedSum n = true →
  shape_at n 0 = Some weights_shape → 2 ≤ rank weights_shape →
  (∀ input_shape : Shape,
     shape_at n 1 = Some input_shape →
     infer PackedSum n
     = returns n (slice_prefix input_shape 1
                  ++ slice_suffix_from weights_shape 1))
  ∧ (shape_at n 1 = None → infer PackedSum n = raises n TypeError)
  ∧ ((∃ e, infer PackedSum n = raises n e) ↔ shape_at n 1 = None).
Proof.
  intros Hc Hw Hrw. rewrite PackedSum_infer_eq.
  unfold mandatory_connected, mandatory_ports in Hc.
  rewrite Hc, Hw, (bool_decide_eq_true_2 _ Hrw).
  split_and!.
  - by intros s ->.
  - by intros ->.
  - destruct (shape_at n 1) as [s|]; split; eauto.
    + intros [e He]. unfold raises, returns in He. congruence.
    + done.
Qed.

Lemma PackedSum_no_indices_rank_check_witness :
  infer PackedSum packed_sum_scalar_indices
  = returns packed_sum_scalar_indices [Known 64%Z].
Proof.
  destruct (PackedSum_no_indices_rank_check packed_sum_scalar_indices
              [Known 1000%Z; Known 64%Z]) as [H _].
  - reflexivity.
  - reflexivity.
  - simpl. lia.
  - apply (H []). reflexivity.
Defined.

(** C10 as stated fails: on an EmbeddingBagOffsetsSum node whose port 0 is
    connected and has no shape, and whose port 1 is not connected, [infer]
    fails in the check of the connected ports, which comes first, with the
    missing-input assertion, one of the error kinds of the specification. *)
Lemma weights_shape_absent_unconnected_counterexample :
  is_connected offsets_sum_not_inferred_unconnected 0 = true
  ∧ shape_at offsets_sum_not_inferred_unconnected 0 = None
  ∧ ∃ e,
      infer OffsetsSum offsets_sum_not_inferred_unconnected
      = raises offsets_sum_not_inferred_unconnected e
      ∧ error_kind e = Some MissingRequiredInput.
Proof.
  split; [reflexivity|]. split; [reflexivity|].
  exists (AssertionError (connected_ports_message OffsetsSum "emb"
            (connected (in_ports offsets_sum_not_inferred_unconnected)))).
  split; [by vm_compute|reflexivity].
Qed.

(** C10, amended. For each class, when the mandatory ports are all
    connected (port 0 among them) and the shape at port 0 is absent, [infer]
    raises [TypeError], from [len] applied to the missing shape, which is
    none of the error kinds of the specification, and leaves the node, its
    output shape included, as it was; when a mandatory port is not
    connected it fails with the missing-input assertion instead, the node
    again left as it was. *)
Theorem weights_shape_absent (c : op_class) (n : Node) :
  shape_at n 0 = None →
  (mandatory_connected c n = true →
   is_connected n 0 = true
   ∧ infer c n = raises n TypeError ∧ error_kind TypeError = None)
  ∧ (mandatory_connected c n = false →
     ∃ e, infer c n = raises n e ∧ error_kind e = Some MissingRequiredInput).
Proof.
  intros Hw. unfold mandatory_connected.
  destruct c; unfold mandatory_ports;
    [rewrite OffsetsSum_infer_eq | rewrite PackedSum_infer_eq
     | rewrite SegmentsSum_infer_eq];
    rewrite Hw; (split; intros Hc; rewrite Hc; [|by eexists]);
    (split; [|done]); simpl in Hc; by apply andb_true_iff in Hc as [? _].
Qed.

Lemma weights_shape_absent_witness :
  infer OffsetsSum offsets_sum_weights_not_inferred
  = raises offsets_sum_weights_not_inferred TypeError.
Proof.
  destruct (weights_shape_absent OffsetsSum offsets_sum_weights_not_inferred)
    as [H _].
  - reflexivity.
  - destruct H as (_ & H & _); [reflexivity | exact H].
Defined.

(** ** Further properties of the three routines *)

Lemma returns_inj (n : Node) (s s' : Shape) :
  returns n s = returns n s' → s = s'.
Proof. unfold returns, with_shape. congruence. Qed.

Lemma raises_ne_returns (n : Node) (e : exn) (s : Shape) :
  raises n e ≠ returns n s.
Proof. unfold raises, returns. congruence. Qed.

Ltac outcome_inv :=
  repeat match goal with
         | H : raises _ _ = returns _ _ |- _ =>
             by apply raises_ne_returns in H
         | H : returns _ _ = returns _ _ |- _ =>
             apply returns_inj in H
         end.

(** The weights pass the rank check exactly when something is left after
    their first dimension. *)
Lemma rank_suffix (s : Shape) : 2 ≤ rank s ↔ 1 ≤ rank (slice_suffix_from s 1).
Proof. unfold rank, slice_suffix_from. rewrite length_drop. lia. Qed.

(** X1. On an EmbeddingBagOffsetsSum node that passes the earlier checks
    (ports 0, 1, 2 connected, weights of rank at least 2), an offsets shape
    that is absent or not of rank 1 makes [infer] fail with the offsets-rank
    assertion, the node left as it was: unlike for the weights, an absent
    shape is guarded and gives no [TypeError]. *)
Theorem OffsetsSum_offsets_rank_check (n : Node) (weights_shape : Shape) :
  mandatory_connected OffsetsSum n = true →
  shape_at n 0 = Some weights_shape → 2 ≤ rank weights_shape →
  rank <$> shape_at n 2 ≠ Some 1 →
  infer OffsetsSum n = raises n (AssertionError (offsets_rank_message (name_of n)))
  ∧ error_kind (AssertionError (offsets_rank_message (name_of n)))
    = Some InvalidOffsetsRank.
Proof.
  intros Hc Hw Hrw Ho. split; [|done].
  rewrite OffsetsSum_infer_eq.
  unfold mandatory_connected, mandatory_ports in Hc.
  rewrite Hc, Hw, (bool_decide_eq_true_2 _ Hrw).
  destruct (shape_at n 2) as [os|]; [|done].
  case_bool_decide as Hr; [|done]. simpl in Ho. congruence.
Qed.

Lemma OffsetsSum_offsets_rank_check_witness :
  infer OffsetsSum offsets_sum_offsets_2d
  = raises offsets_sum_offsets_2d (AssertionError (offsets_rank_message "emb")).
Proof.
  apply (OffsetsSum_offsets_rank_check offsets_sum_offsets_2d
           [Known 1000%Z; Known 64%Z]).
  - reflexivity.
  - reflexivity.
  - simpl. lia.
  - vm_compute. discriminate.
Defined.

(** X2. [EmbeddingBagOffsetsSum.infer] returns with output shape [s] exactly
    when ports 0, 1, 2 are connected, the weights shape is present with rank
    at least 2, the offsets shape is present with rank 1, and [s] is the
    offsets dimension followed by the weights dimensions after the first;
    nothing else is required, in particular no shape at the indices port. *)
Theorem OffsetsSum_returns_iff (n : Node) (s : Shape) :
  infer OffsetsSum n = returns n s ↔
  mandatory_connected OffsetsSum n = true
  ∧ ∃ weights_shape offsets_shape,
      shape_at n 0 = Some weights_shape ∧ 2 ≤ rank weights_shape
      ∧ shape_at n 2 = Some offsets_shape ∧ rank offsets_shape = 1
      ∧ s = slice_prefix offsets_shape 1 ++ slice_suffix_from weights_shape 1.
Proof.
  rewrite OffsetsSum_infer_eq. unfold mandatory_connected, mandatory_ports.
  split.
  - intros H. repeat case_match; outcome_inv.
    split; [done|]. do 2 eexists. split_and!; try done.
    + by eapply bool_decide_eq_true_1.
    + by eapply bool_decide_eq_true_1.
  - intros (Hc & ws & os & Hw & Hrw & Ho & Hro & ->).
    by rewrite Hc, Hw, Ho, !bool_decide_eq_true_2.
Qed.

(** X3. [EmbeddingBagPackedSum.infer] returns with output shape [s] exactly
    when ports 0 and 1 are connected, the weights shape is present with rank
    at least 2, the indices shape is present, and [s] is [indices_shape[:1]]
    followed by [weights_shape[1:]]. *)
Theorem PackedSum_returns_iff (n : Node) (s : Shape) :
  infer PackedSum n = returns n s ↔
  mandatory_connected PackedSum n = true
  ∧ ∃ weights_shape input_shape,
      shape_at n 0 = Some weights_shape ∧ 2 ≤ rank weights_shape
      ∧ shape_at n 1 = Some input_shape
      ∧ s = slice_prefix input_shape 1 ++ slice_suffix_from weights_shape 1.
Proof.
  rewrite PackedSum_infer_eq. unfold mandatory_connected, mandatory_ports.
  split.
  - intros H. repeat case_match; outcome_inv.
    split; [done|]. do 2 eexists. split_and!; try done.
    by eapply bool_decide_eq_true_1.
  - intros (Hc & ws & os & Hw & Hrw & Ho & ->).
    by rewrite Hc, Hw, Ho, !bool_decide_eq_true_2.
Qed.

(** X4. [EmbeddingSegmentsSum.infer] returns with output shape [s] exactly
    when ports 0 to 3 are connected, the weights shape is present with rank
    at least 2, the indices and segment_ids shapes are present, of rank 1
    and equal, port 3 has a constant value, and [s] is that value followed
    by [weights_shape[1:]]. *)
Theorem SegmentsSum_returns_iff (n : Node) (s : Shape) :
  infer SegmentsSum n = returns n s ↔
  mandatory_connected SegmentsSum n = true
  ∧ ∃ weights_shape indices_shape num_segments,
      shape_at n 0 = Some weights_shape ∧ 2 ≤ rank weights_shape
      ∧ shape_at n 1 = Some indices_shape ∧ rank indices_shape = 1
      ∧ shape_at n 2 = Some indices_shape
      ∧ value_at n 3 = Some num_segments
      ∧ s = Known num_segments :: slice_suffix_from weights_shape 1.
Proof.
  rewrite SegmentsSum_infer_eq. unfold mandatory_connected, mandatory_ports.
  split.
  - intros H. repeat case_match; outcome_inv.
    match goal with
    | E : _ && _ = true |- _ =>
        apply andb_true_iff in E as [E1%bool_decide_eq_true E2%bool_decide_eq_true]
    end.
    subst. split; [done|]. do 3 eexists. split_and!; try done.
    all: by eapply bool_decide_eq_true_1.
  - intros (Hc & ws & os & v & Hw & Hrw & Ho & Hro & Hs & Hv & ->).
    by rewrite Hc, Hw, Ho, Hs, Hv, !bool_decide_eq_true_2.
Qed.

(** X5. For every class, a call of [infer] touches nothing but the shape of
    the output port: the id, the name and the input ports of the node are
    as before, and when the call raises the output shape is as before too,
    since the only write is the last statement of each routine. *)
Theorem infer_frame (c : op_class) (n : Node) :
  id (infer c n).1 = id n
  ∧ attr_name (infer c n).1 = attr_name n
  ∧ in_ports (infer c n).1 = in_ports n
  ∧ (∀ e, (infer c n).2 = inl e → (infer c n).1 = n)
  ∧ ((infer c n).2 = inr tt → is_Some (out_port_shape (infer c n).1)).
Proof.
  destruct (infer_outcome c n) as [[e ->]|[s ->]]; simpl; by split_and!.
Qed.

(** What the routines read of a node does not change when its output shape
    is set. *)
Lemma with_shape_reads (n : Node) (s : Shape) :
  is_connected (with_shape n s) = is_connected n
  ∧ shape_at (with_shape n s) = shape_at n
  ∧ value_at (with_shape n s) = value_at n
  ∧ name_of (with_shape n s) = name_of n
  ∧ ∀ s', returns (with_shape n s) s' = returns n s'.
Proof. done. Qed.

(** X6. For every class, [infer] is idempotent: on the node a successful
    call has produced, a second call returns again and leaves the node, its
    output shape included, exactly as the first call left it. *)
Theorem infer_idempotent (c : op_class) (n n' : Node) :
  infer c n = (n', inr tt) → infer c n' = (n', inr tt).
Proof.
  intros H. destruct (infer_outcome c n) as [[e He]|[s Hs]].
  { rewrite He in H. by apply raises_not_returns in H. }
  rewrite Hs in H. apply returns_inv in H as ->.
  destruct (with_shape_reads n s) as (Hc & Hsh & Hv & Hn & Hr).
  change (infer c (with_shape n s) = returns (with_shape n s) s).
  destruct c;
    [rewrite OffsetsSum_infer_eq in Hs |- *
    | rewrite PackedSum_infer_eq in Hs |- *
    | rewrite SegmentsSum_infer_eq in Hs |- *];
    rewrite Hc, Hsh, ?Hv, Hn; repeat case_match; outcome_inv; by subst.
Qed.

Lemma infer_idempotent_witness :
  infer OffsetsSum (with_shape offsets_sum_node [Known 7%Z; Known 64%Z])
  = (with_shape offsets_sum_node [Known 7%Z; Known 64%Z], inr tt).
Proof.
  apply (infer_idempotent OffsetsSum offsets_sum_node). reflexivity.
Defined.

Lemma returns_eq_iff (n1 n2 : Node) (s s' : Shape) :
  returns n1 s = returns n1 s' ↔ returns n2 s = returns n2 s'.
Proof. split; intros ->%returns_inj; done. Qed.

Lemma raises_eq_iff (n1 n2 : Node) (e1 e2 : exn) (s : Shape) :
  raises n1 e1 = returns n1 s ↔ raises n2 e2 = returns n2 s.
Proof. split; intros H; by apply raises_ne_returns in H. Qed.

Ltac same_outcome :=
  repeat case_match; first [apply returns_eq_iff | apply raises_eq_iff].

(** X7. What each routine reads. The output shape, and whether there is
    one, is the same on two nodes that agree on: whether the mandatory
    ports are connected; the weights shape after its first dimension; and,
    for EmbeddingBagOffsetsSum the offsets shape, for EmbeddingBagPackedSum
    the first dimension of the indices shape, for EmbeddingSegmentsSum the
    indices and segment_ids shapes and the value at port 3. The number of
    rows of the weights, the optional ports, the names, and for
    EmbeddingBagOffsetsSum the indices shape, play no part. *)
Theorem infer_reads_only (c : op_class) (n1 n2 : Node) :
  mandatory_connected c n1 = mandatory_connected c n2 →
  (λ s, slice_suffix_from s 1) <$> shape_at n1 0
  = (λ s, slice_suffix_from s 1) <$> shape_at n2 0 →
  match c with
  | OffsetsSum => shape_at n1 2 = shape_at n2 2
  | PackedSum =>
      (λ s, slice_prefix s 1) <$> shape_at n1 1
      = (λ s, slice_prefix s 1) <$> shape_at n2 1
  | SegmentsSum =>
      shape_at n1 1 = shape_at n2 1 ∧ shape_at n1 2 = shape_at n2 2
      ∧ value_at n1 3 = value_at n2 3
  end →
  ∀ s, infer c n1 = returns n1 s ↔ infer c n2 = returns n2 s.
Proof.
  intros Hc Hw Hrest s. unfold mandatory_connected in Hc.
  destruct c; unfold mandatory_ports in Hc;
    [rewrite !OffsetsSum_infer_eq | rewrite !PackedSum_infer_eq
     | rewrite !SegmentsSum_infer_eq];
    rewrite Hc; clear Hc;
    (destruct (forallb _ _); [|apply raises_eq_iff]);
    (destruct (shape_at n1 0) as [ws1|], (shape_at n2 0) as [ws2|];
     [|discriminate Hw..|apply raises_eq_iff]);
    apply (inj Some) in Hw;
    rewrite (bool_decide_ext _ _ (rank_suffix ws1)),
      (bool_decide_ext _ _ (rank_suffix ws2)), Hw.
  - rewrite Hrest. same_outcome.
  - destruct (shape_at n1 1) as [s1|], (shape_at n2 1) as [s2|];
      [|discriminate Hrest..|same_outcome].
    apply (inj Some) in Hrest. rewrite Hrest. same_outcome.
  - destruct Hrest as (-> & -> & ->). same_outcome.
Qed.

Lemma infer_reads_only_witness :
  infer OffsetsSum offsets_sum_other_unread
  = returns offsets_sum_other_unread [Known 7%Z; Known 64%Z].
Proof.
  apply (infer_reads_only OffsetsSum offsets_sum_node offsets_sum_other_unread).
  - reflexivity.
  - reflexivity.
  - reflexivity.
  - reflexivity.
Defined.

(** X8. What EmbeddingBagOffsetsSum and EmbeddingBagPackedSum can raise. A
    call of either that raises leaves the node as it was, and the exception
    is a [TypeError], the missing-input assertion of the class, the
    weights-rank assertion of the class or, for EmbeddingBagOffsetsSum
    only, the offsets-rank assertion; every assertion names the node by
    [soft_get('name', id)]. EmbeddingBagPackedSum has no assertion beyond
    the first two, and neither routine asks the node for a port it has
    not found connected. *)
Theorem bag_infer_raises_only (c : op_class) (n n' : Node) (e : exn) :
  c ≠ SegmentsSum →
  infer c n = (n', inl e) →
  n' = n
  ∧ (e = TypeError
     ∨ e = AssertionError (connected_ports_message c (name_of n)
                             (connected (in_ports n)))
     ∨ e = AssertionError (weights_2D_message c (name_of n))
     ∨ (c = OffsetsSum
        ∧ e = AssertionError (offsets_rank_message (name_of n)))).
Proof.
  intros Hc. destruct c; [| |done];
    [rewrite OffsetsSum_infer_eq | rewrite PackedSum_infer_eq];
    unfold raises, returns; intros H; repeat case_match; simplify_eq;
    (split; [done|]); auto.
Qed.

Lemma bag_infer_raises_only_witness :
  offsets_sum_flat_weights = offsets_sum_flat_weights
  ∧ (AssertionError (weights_2D_message OffsetsSum "emb") = TypeError
     ∨ AssertionError (weights_2D_message OffsetsSum "emb")
       = AssertionError (connected_ports_message OffsetsSum
                           (name_of offsets_sum_flat_weights)
                           (connected (in_ports offsets_sum_flat_weights)))
     ∨ AssertionError (weights_2D_message OffsetsSum "emb")
       = AssertionError (weights_2D_message OffsetsSum
                           (name_of offsets_sum_flat_weights))
     ∨ (OffsetsSum = OffsetsSum
        ∧ AssertionError (weights_2D_message OffsetsSum "emb")
          = AssertionError (offsets_rank_message
                              (name_of offsets_sum_flat_weights)))).
Proof.
  apply (bag_infer_raises_only OffsetsSum offsets_sum_flat_weights).
  - discriminate.
  - reflexivity.
Defined.

(** X9. Absent index shapes of EmbeddingSegmentsSum. On a node that passes
    the earlier checks (ports 0 to 3 connected, weights of rank at least 2)
    an absent indices shape gives a [TypeError]; an absent segment_ids shape
    gives a [TypeError] when the indices have rank 1, and the same-shape
    assertion when they do not, because the [and] of the assertion stops at
    the rank of the indices. *)
Theorem SegmentsSum_absent_shapes (n : Node) (weights_shape : Shape) :
  mandatory_connected SegmentsSum n = true →
  shape_at n 0 = Some weights_shape → 2 ≤ rank weights_shape →
  (shape_at n 1 = None → infer SegmentsSum n = raises n TypeError)
  ∧ ∀ indices_shape : Shape,
      shape_at n 1 = Some indices_shape → shape_at n 2 = None →
      infer SegmentsSum n
      = raises n (if bool_decide (rank indices_shape = 1) then TypeError
                  else AssertionError (same_shape_message (name_of n))).
Proof.
  intros Hc Hw Hrw. rewrite SegmentsSum_infer_eq.
  unfold mandatory_connected, mandatory_ports in Hc.
  rewrite Hc, Hw, (bool_decide_eq_true_2 _ Hrw). split.
  - by intros ->.
  - intros s -> ->. by case_bool_decide.
Qed.

Lemma SegmentsSum_absent_shapes_witness :
  infer SegmentsSum segments_sum_no_segment_ids_shape
  = raises segments_sum_no_segment_ids_shape
      (AssertionError (same_shape_message "emb")).
Proof.
  destruct (SegmentsSum_absent_shapes segments_sum_no_segment_ids_shape
              [Known 1000%Z; Known 64%Z]) as [_ H].
  - reflexivity.
  - reflexivity.
  - simpl. lia.
  - apply (H [Known 10%Z; Known 2%Z]); reflexivity.
Defined.

(** X10. In the first assertion of each routine the count of the connected
    ports decides nothing: on every dictionary of ports, the condition
    [len(d) >= k and all(p in d for p in [0, ..., k-1])] has the value of
    its membership test alone. *)
Theorem connected_count_decides_nothing (d : gmap nat Port) :
  bool_decide (3 ≤ size d) && all_in [0; 1; 2] d = all_in [0; 1; 2] d
  ∧ bool_decide (2 ≤ size d) && all_in [0; 1] d = all_in [0; 1] d
  ∧ bool_decide (4 ≤ size d) && all_in [0; 1; 2; 3] d = all_in [0; 1; 2; 3] d.
Proof.
  split_and!.
  all: match goal with
       | |- _ && all_in ?ps ?m = _ =>
           destruct (all_in ps m) eqn:E; [|apply andb_false_r];
           apply all_in_size in E; [|compute_done];
           rewrite andb_true_r; by apply bool_decide_eq_true
       end.
Qed.

(** X11. The rank of the derived shape. Whenever [infer] returns, the
    output shape has rank at least 1; for EmbeddingBagOffsetsSum and
    EmbeddingSegmentsSum it has the rank of the weights, and for
    EmbeddingBagPackedSum the rank of the weights when the indices have a
    dimension, one less when their shape is empty. *)
Theorem output_rank (c : op_class) (n n' : Node) :
  infer c n = (n', inr tt) →
  ∃ weights_shape out,
    shape_at n 0 = Some weights_shape
    ∧ out_port_shape n' = Some out
    ∧ 1 ≤ rank out
    ∧ match c with
      | OffsetsSum | SegmentsSum => rank out = rank weights_shape
      | PackedSum =>
          ∃ input_shape,
            shape_at n 1 = Some input_shape
            ∧ rank out = Nat.min 1 (rank input_shape) + (rank weights_shape - 1)
      end.
Proof.
  intros H. destruct c;
    [rewrite OffsetsSum_infer_eq in H | rewrite PackedSum_infer_eq in H
     | rewrite SegmentsSum_infer_eq in H];
    repeat case_match; try (by apply raises_not_returns in H);
    apply returns_inv in H as ->;
    repeat match goal with
           | E : bool_decide _ = true |- _ => apply bool_decide_eq_true in E
           end;
    do 2 eexists; (split; [done|]); (split; [done|]);
    unfold rank, slice_prefix, slice_suffix_from in *.
  - rewrite length_app, length_take, length_drop. lia.
  - rewrite length_app, length_take, length_drop. split; [lia|].
    eexists. split; [done|lia].
  - simpl. rewrite length_drop. lia.
Qed.

Lemma output_rank_witness :
  ∃ weights_shape out,
    shape_at packed_sum_scalar_indices 0 = Some weights_shape
    ∧ out_port_shape (with_shape packed_sum_scalar_indices [Known 64%Z])
      = Some out
    ∧ 1 ≤ rank out
    ∧ ∃ input_shape,
        shape_at packed_sum_scalar_indices 1 = Some input_shape
        ∧ rank out = Nat.min 1 (rank input_shape) + (rank weights_shape - 1).
Proof.
  apply (output_rank PackedSum packed_sum_scalar_indices). reflexivity.
Defined.
